(** * JWT authentication middlewares: a shallow embedding of
      [authentication/middlewares.go] and the properties of its three
      request interceptors ([Verify], [Authenticate], [RequiresRole]).

    Go values are embedded as follows.
    - A pointer that may be [nil] ([*jwt.Token]) and an interface that may be
      [nil] ([error]) are [option]s.
    - A function returning several results returns a tuple.
    - A function that can dereference a [nil] pointer returns a [Run]: either
      [Returns v] or [Panics].
    - A handler body is the list of the effects it performs on its two
      collaborators, the response writer and the next handler, in order. *)

From Stdlib Require Import ZArith String List Lia.
From stdpp Require Import base decidable option list numbers strings gmap.

(** ** Go's [error] values

    Modelled from the spec: the five sentinel errors are package-level
    variables declared outside the sources; the middlewares return them by
    name ([ErrNoTokenFound], [ErrExpired], [ErrIATInvalid], [ErrNBFInvalid],
    [ErrAlgoInvalid]).  [ValidationError] is a (non-nil)
    [*jwt.ValidationError], of which the source reads the [Errors] bit field
    (a [uint32]); every error of another dynamic type is an [OtherError]. *)
Inductive error : Type :=
| ErrNoTokenFound
| ErrExpired
| ErrIATInvalid
| ErrNBFInvalid
| ErrAlgoInvalid
| ValidationError (Errors : Z) (text : string)
| OtherError (text : string).

#[global] Instance error_eq_dec : EqDecision error.
Proof. solve_decision. Defined.

(** The result of running Go code that may panic. *)
Inductive Run (A : Type) : Type :=
| Returns (a : A)
| Panics.
Arguments Returns {A} a.
Arguments Panics {A}.

(** ** The part of [github.com/dgrijalva/jwt-go] the middlewares use *)
Module jwt.

(** The flags of [ValidationError.Errors], declared in jwt-go's [errors.go] as
    [uint32 = 1 << iota]. *)
Definition ValidationErrorMalformed : Z := Z.shiftl 1 0.
Definition ValidationErrorUnverifiable : Z := Z.shiftl 1 1.
Definition ValidationErrorSignatureInvalid : Z := Z.shiftl 1 2.
Definition ValidationErrorAudience : Z := Z.shiftl 1 3.
Definition ValidationErrorExpired : Z := Z.shiftl 1 4.
Definition ValidationErrorIssuedAt : Z := Z.shiftl 1 5.
Definition ValidationErrorIssuer : Z := Z.shiftl 1 6.
Definition ValidationErrorNotValidYet : Z := Z.shiftl 1 7.
Definition ValidationErrorId : Z := Z.shiftl 1 8.
Definition ValidationErrorClaimsInvalid : Z := Z.shiftl 1 9.

(** [jwt.MapClaims] is [map[string]interface{}]; [jwt.Token] carries the
    signing method, the raw claim set and the validity flag. *)
Record Token (SigningMethod ClaimValue : Type) : Type := mkToken {
  Method : SigningMethod;
  Claims : gmap string ClaimValue;
  Valid : bool
}.
Arguments mkToken {SigningMethod ClaimValue} Method Claims Valid.
Arguments Method {SigningMethod ClaimValue} t.
Arguments Claims {SigningMethod ClaimValue} t.
Arguments Valid {SigningMethod ClaimValue} t.

End jwt.

(** ** The part of [context] the middlewares use

    A context is the chain of its [WithValue] ancestors, innermost first;
    [Value] returns the binding closest to the leaf. *)
Module context.

Definition Context (Key Val : Type) : Type := list (Key * Val).

Definition Background {Key Val : Type} : Context Key Val := [].

Definition WithValue {Key Val : Type} (parent : Context Key Val)
    (key : Key) (val : Val) : Context Key Val :=
  (key, val) :: parent.

Fixpoint Value {Key Val : Type} `{EqDecision Key}
    (ctx : Context Key Val) (key : Key) : option Val :=
  match ctx with
  | [] => None
  | (k, v) :: parent => if decide (k = key) then Some v else Value parent key
  end.

End context.

(** ** The part of [net/http] the middlewares use *)
Module http.

(** What a [ResponseWriter] has been told so far: the status line (once
    [WriteHeader] ran), the header map and the body bytes. *)
Record ResponseWriter : Type := mkResponseWriter {
  Status : option Z;
  HeaderMap : gmap string string;
  Body : string
}.

Definition NewRecorder : ResponseWriter :=
  {| Status := None; HeaderMap := ∅; Body := EmptyString |}.

Definition StatusText (code : Z) : string :=
  match code with
  | 200 => "OK"
  | 400 => "Bad Request"
  | 401 => "Unauthorized"
  | 403 => "Forbidden"
  | 404 => "Not Found"
  | 500 => "Internal Server Error"
  | _ => EmptyString
  end%Z.

Definition SetHeader (w : ResponseWriter) (key val : string) : ResponseWriter :=
  {| Status := Status w; HeaderMap := <[key := val]> (HeaderMap w); Body := Body w |}.

(** A second [WriteHeader] is ignored by the server. *)
Definition WriteHeader (w : ResponseWriter) (code : Z) : ResponseWriter :=
  match Status w with
  | Some _ => w
  | None => {| Status := Some code; HeaderMap := HeaderMap w; Body := Body w |}
  end.

(** [Write] sends the header with status 200 when none was sent. *)
Definition Write (w : ResponseWriter) (data : string) : ResponseWriter :=
  let w := WriteHeader w 200 in
  {| Status := Status w; HeaderMap := HeaderMap w; Body := Body w +:+ data |}.

Definition newline : string := String (Ascii.ascii_of_nat 10) EmptyString.

(** [http.Error]: two header fields, the status code, then the message as a
    line of plain text. *)
Definition Error (w : ResponseWriter) (error : string) (code : Z) : ResponseWriter :=
  let w := SetHeader w "Content-Type" "text/plain; charset=utf-8" in
  let w := SetHeader w "X-Content-Type-Options" "nosniff" in
  let w := WriteHeader w code in
  Write w (error +:+ newline).

End http.

(** ** Package [authentication] *)
Section authentication.

(** [jwt.SigningMethod] values and the dynamic values of a claim are opaque
    to the middlewares; signing methods are compared with [!=].  A [Role] is
    compared with [==]. *)
Context {SigningMethod ClaimValue Role : Type}.
Context `{!EqDecision SigningMethod} `{!EqDecision Role}.

Local Abbreviation Token := (jwt.Token SigningMethod ClaimValue).
Local Abbreviation MapClaims := (gmap string ClaimValue).

(** Modelled from the spec: the declaration of [AppClaims] is not among the
    sources.  The parsed claim set holds at least an account identifier and
    the roles of the account; the source reads [Roles], a slice of [Role]. *)
Record AppClaims : Type := mkAppClaims {
  ID : Z;
  Roles : list Role
}.

(** Modelled from the spec: the context keys are declared outside the
    sources.  There are two well-known keys, one for the verification outcome
    and one for the parsed claims ([AccessClaimsCtxKey] in the source); other
    packages use keys of their own. *)
Inductive CtxKey : Type :=
| VerificationCtxKey
| AccessClaimsCtxKey
| ForeignCtxKey (name : string).

#[global] Instance CtxKey_eq_dec : EqDecision CtxKey.
Proof. solve_decision. Defined.

(** The values found under these keys. *)
Inductive CtxValue : Type :=
| OutcomeValue (token : option Token) (err : option error)
| AppClaimsValue (c : AppClaims)
| ForeignValue (payload : string).

Local Abbreviation Context := (context.Context CtxKey CtxValue).

(** An [*http.Request]: the three places a credential may travel in, and the
    request context. *)
Record Request : Type := mkRequest {
  URLQuery : list (string * string);
  Header : list (string * string);
  Cookies : list (string * string);
  ctx : Context
}.

(** [r.Context()] and [r.WithContext(ctx)]. *)
Definition RequestContext (r : Request) : Context := ctx r.

Definition WithContext (r : Request) (c : Context) : Request :=
  {| URLQuery := URLQuery r; Header := Header r; Cookies := Cookies r; ctx := c |}.

(** The receiver [ja *jwtAuth]: the configured signing method, and the
    methods of [jwtAuth] that are defined outside the sources, each taken as
    it is: the decoder and the three extraction strategies. *)
Record jwtAuth : Type := mkJwtAuth {
  signer : SigningMethod;
  Decode : string -> option Token * option error;
  TokenFromQuery : Request -> string;
  TokenFromHeader : Request -> string;
  TokenFromCookie : Request -> string
}.

(** [(c *AppClaims).ParseClaims(claims)] is defined outside the sources: it
    fills the receiver from the raw claim set and returns an error or [nil]. *)
Variable ParseClaims : MapClaims -> AppClaims * option error.

(** Modelled from the spec: [NewContext] is the Context Carrier's [attach],
    it returns a new context that carries the outcome under its own key. *)
Definition NewContext (c : Context) (token : option Token) (err : option error)
    : Context :=
  context.WithValue c VerificationCtxKey (OutcomeValue token err).

(** Modelled from the spec: [TokenFromContext] is the Context Carrier's
    [retrieve].  It returns the carried token, the raw claim set of that
    token and the carried error; when no outcome was attached it returns
    no token, an empty claim set and no error. *)
Definition TokenFromContext (c : Context)
    : option Token * MapClaims * option error :=
  match context.Value c VerificationCtxKey with
  | Some (OutcomeValue token err) =>
      (token, from_option jwt.Claims ∅ token, err)
  | _ => (None, ∅, None)
  end.

(** Modelled from the spec: [AppClaimsFromCtx] returns the claims found under
    [AccessClaimsCtxKey], and an empty claim set (the zero [AppClaims]) when
    there are none. *)
Definition AppClaimsFromCtx (c : Context) : AppClaims :=
  match context.Value c AccessClaimsCtxKey with
  | Some (AppClaimsValue claims) => claims
  | _ => {| ID := 0; Roles := [] |}
  end.

(** What a handler body does to its collaborators: [HttpError error code] is
    the call [http.Error(w, error, code)], [ServeNext r] is the call
    [next.ServeHTTP(w, r)]. *)
Inductive Effect : Type :=
| HttpError (error : string) (code : Z)
| ServeNext (r : Request).

(** The extraction loop of [verifyRequest]: the value of [tokenStr] when the
    loop is left, and the number of find functions it has called. *)
Fixpoint findToken (r : Request) (findTokenFns : list (Request -> string))
    : string * nat :=
  match findTokenFns with
  | [] => (EmptyString, 0%nat)
  | fn :: rest =>
      let tokenStr := fn r in
      if decide (tokenStr <> EmptyString) then (tokenStr, 1%nat)
      else let '(tokenStr, calls) := findToken r rest in (tokenStr, S calls)
  end.

Definition verifyRequest (ja : jwtAuth) (r : Request)
    (findTokenFns : list (Request -> string))
    : Run (option Token * option error) :=
  let tokenStr := fst (findToken r findTokenFns) in
  if decide (tokenStr = EmptyString) then Returns (None, Some ErrNoTokenFound)
  else
    let '(token, err) := Decode ja tokenStr in
    match err with
    | Some e =>
        match e with
        | ValidationError Errors _ =>
            if (Z.land Errors jwt.ValidationErrorExpired >? 0)%Z then
              Returns (token, Some ErrExpired)
            else if (Z.land Errors jwt.ValidationErrorIssuedAt >? 0)%Z then
              Returns (token, Some ErrIATInvalid)
            else if (Z.land Errors jwt.ValidationErrorNotValidYet >? 0)%Z then
              Returns (token, Some ErrNBFInvalid)
            else Returns (token, Some e)
        | _ => Returns (token, Some e)
        end
    | None =>
        match token with
        | None => Panics
        | Some t =>
            if decide (jwt.Method t <> signer ja) then
              Returns (token, Some ErrAlgoInvalid)
            else Returns (token, None)
        end
    end.

(** The handler returned by [ja.verify(findTokenFns...)(next)]. *)
Definition verify (ja : jwtAuth) (findTokenFns : list (Request -> string))
    (r : Request) : Run (list Effect) :=
  let c := RequestContext r in
  match verifyRequest ja r findTokenFns with
  | Panics => Panics
  | Returns (token, err) =>
      let c := NewContext c token err in
      Returns [ServeNext (WithContext r c)]
  end.

(** The handler returned by [ja.Verify()(next)]. *)
Definition Verify (ja : jwtAuth) (r : Request) : Run (list Effect) :=
  verify ja [TokenFromQuery ja; TokenFromHeader ja; TokenFromCookie ja] r.

(** The handler returned by [ja.Authenticate(next)]. *)
Definition Authenticate (ja : jwtAuth) (r : Request) : list Effect :=
  let '(token, claims, err) := TokenFromContext (RequestContext r) in
  match err with
  | Some _ => [HttpError (http.StatusText 401) 401]
  | None =>
      match token with
      | None => [HttpError (http.StatusText 401) 401]
      | Some t =>
          if negb (jwt.Valid t) then [HttpError (http.StatusText 401) 401]
          else
            let '(c, err) := ParseClaims claims in
            match err with
            | Some _ => [HttpError (http.StatusText 401) 401]
            | None =>
                let c' := context.WithValue (RequestContext r)
                            AccessClaimsCtxKey (AppClaimsValue c) in
                [ServeNext (WithContext r c')]
            end
      end
  end.

Fixpoint hasRole (role : Role) (roles : list Role) : bool :=
  match roles with
  | [] => false
  | r :: rest => if decide (r = role) then true else hasRole role rest
  end.

(** The handler returned by [ja.RequiresRole(role)(next)]. *)
Definition RequiresRole (ja : jwtAuth) (role : Role) (r : Request)
    : list Effect :=
  let claims := AppClaimsFromCtx (RequestContext r) in
  if negb (hasRole role (Roles claims)) then
    [HttpError (http.StatusText 401) 401]
  else [ServeNext r].

(** The response the handler body itself writes on [w]: its calls of
    [http.Error], in order (what [next] writes is [next]'s own). *)
Definition written (w : http.ResponseWriter) (effects : list Effect)
    : http.ResponseWriter :=
  fold_left
    (fun w e =>
       match e with
       | HttpError error code => http.Error w error code
       | ServeNext _ => w
       end)
    effects w.

(** The requests a handler body hands to [next], in order. *)
Definition forwarded (effects : list Effect) : list Request :=
  omap (fun e => match e with ServeNext r => Some r | HttpError _ _ => None end)
       effects.

(** The two interceptors that can answer a request themselves. *)
Inductive Gate : Type :=
| AuthenticateGate
| RequiresRoleGate (role : Role).

Definition runGate (ja : jwtAuth) (g : Gate) (r : Request) : list Effect :=
  match g with
  | AuthenticateGate => Authenticate ja r
  | RequiresRoleGate role => RequiresRole ja role r
  end.

(** The decode error [e] is a [*jwt.ValidationError] whose bit field has the
    bit of [flag] set. *)
Definition signals (e : error) (flag : Z) : bool :=
  match e with
  | ValidationError Errors _ => Z.testbit Errors (Z.log2 flag)
  | _ => false
  end.

(** The strategy list has its first credential at position [k]: the find
    functions before it find nothing in [r], the one at [k] finds one. *)
Definition firstMatch (r : Request) (fns : list (Request -> string))
    (k : nat) (fn : Request -> string) : Prop :=
  fns !! k = Some fn /\
  Forall (fun f => f r = EmptyString) (take k fns) /\
  fn r <> EmptyString.

(** ** Chains of handlers

    [withNext effects next] is what a handler body does once its [next] is
    the handler with body [next]: each call [next.ServeHTTP(w, r)] runs that
    body on [r]. *)
Definition withNext (effects : list Effect) (next : Request -> list Effect)
    : list Effect :=
  flat_map
    (fun e =>
       match e with
       | HttpError error code => [HttpError error code]
       | ServeNext r => next r
       end)
    effects.

(** The same for a handler that may panic before it reaches [next]. *)
Definition withNextRun (first : Run (list Effect))
    (next : Request -> list Effect) : Run (list Effect) :=
  match first with
  | Panics => Panics
  | Returns effects => Returns (withNext effects next)
  end.

(** The three flags [verifyRequest] tests, as one mask. *)
Definition timeFlags : Z :=
  Z.lor (Z.lor jwt.ValidationErrorExpired jwt.ValidationErrorIssuedAt)
    jwt.ValidationErrorNotValidYet.

End authentication.

(** ** A deployment to run the middlewares on

    Two signing methods, textual claim values and roles.  The decoder knows
    a handful of credentials; the find functions read the [jwt] query
    parameter, the [Authorization] header and the [jwt] cookie. *)
Module Demo.

Inductive Alg : Type := HS256 | RS256.

#[global] Instance Alg_eq_dec : EqDecision Alg.
Proof. solve_decision. Defined.

Definition Tok : Type := jwt.Token Alg string.
Definition Req : Type := @Request Alg string string.
Definition Auth : Type := @jwtAuth Alg string string.
Definition Ctx : Type := context.Context CtxKey (@CtxValue Alg string string).

Definition adminClaims : gmap string string := {[ "roles" := "admin" ]}.

Definition token (m : Alg) (valid : bool) : Tok :=
  jwt.mkToken m adminClaims valid.

Definition decode (tokenStr : string) : option Tok * option error :=
  if decide (tokenStr = "good") then (Some (token HS256 true), None)
  else if decide (tokenStr = "rsa") then (Some (token RS256 true), None)
  else if decide (tokenStr = "expired") then
    (Some (token HS256 false), Some (ValidationError 16 "token is expired"))
  else if decide (tokenStr = "stale") then
    (Some (token HS256 false),
     Some (ValidationError (16 + 32 + 128) "token is expired"))
  else if decide (tokenStr = "early") then
    (Some (token HS256 false),
     Some (ValidationError (4 + 128) "token is not valid yet"))
  else if decide (tokenStr = "forged") then
    (Some (token HS256 false),
     Some (ValidationError 4 "signature is invalid"))
  else if decide (tokenStr = "keyless") then
    (Some (token HS256 false), Some (OtherError "token is expired"))
  else if decide (tokenStr = "void") then (None, None)
  else (None, Some (ValidationError 1 "token is malformed")).

Fixpoint lookup (key : string) (fields : list (string * string)) : string :=
  match fields with
  | [] => EmptyString
  | (k, v) :: rest => if decide (k = key) then v else lookup key rest
  end.

Definition fromQuery (r : Req) : string := lookup "jwt" (URLQuery r).

Definition fromHeader (r : Req) : string :=
  let bearer := lookup "Authorization" (Header r) in
  if String.prefix "BEARER " bearer then
    String.substring 7 (String.length bearer - 7) bearer
  else EmptyString.

Definition fromCookie (r : Req) : string := lookup "jwt" (Cookies r).

Definition ja : Auth :=
  {| signer := HS256; Decode := decode;
     TokenFromQuery := fromQuery;
     TokenFromHeader := fromHeader;
     TokenFromCookie := fromCookie |}.

Definition finders : list (Req -> string) :=
  [fromQuery; fromHeader; fromCookie].

Definition parseClaims (claims : gmap string string)
    : @AppClaims string * option error :=
  match claims !! "roles" with
  | Some role => ({| ID := 7; Roles := [role] |}, None)
  | None => ({| ID := 0; Roles := [] |}, Some (OtherError "no roles"))
  end.

(** A request that carries [q] as query parameter, [h] as bearer header and
    [c] as cookie (each left out when empty), with context [cx]. *)
Definition request (q h c : string) (cx : Ctx) : Req :=
  {| URLQuery := if decide (q = EmptyString) then [] else [("jwt", q)];
     Header := if decide (h = EmptyString) then []
               else [("Authorization", "BEARER " +:+ h)];
     Cookies := if decide (c = EmptyString) then [] else [("jwt", c)];
     ctx := cx |}.

Definition verified (t : option Tok) (err : option error) : Ctx :=
  NewContext context.Background t err.

Definition authenticated (roles : list string) : Ctx :=
  context.WithValue (verified (Some (token HS256 true)) None)
    AccessClaimsCtxKey (AppClaimsValue {| ID := 7; Roles := roles |}).

End Demo.

(** A second deployment: its decoder finds the signature invalid as well
    wherever it finds a token expired. *)
Module Strict.

Definition decode (tokenStr : string) : option Demo.Tok * option error :=
  if decide (tokenStr = "expired") then
    (Some (Demo.token Demo.HS256 false),
     Some (ValidationError (4 + 16) "signature is invalid"))
  else Demo.decode tokenStr.

Definition ja : Demo.Auth :=
  {| signer := Demo.HS256; Decode := decode;
     TokenFromQuery := Demo.fromQuery;
     TokenFromHeader := Demo.fromHeader;
     TokenFromCookie := Demo.fromCookie |}.

End Strict.

(** ** Runs of the middlewares on the deployment *)

Example verifyRequest_good :
  verifyRequest Demo.ja
    (Demo.request EmptyString "good" EmptyString context.Background)
    Demo.finders
  = Returns (Some (Demo.token Demo.HS256 true), None).
Proof. reflexivity. Qed.

Example verifyRequest_early :
  verifyRequest Demo.ja
    (Demo.request "early" "good" EmptyString context.Background)
    Demo.finders
  = Returns (Some (Demo.token Demo.HS256 false), Some ErrNBFInvalid).
Proof. reflexivity. Qed.

Example verifyRequest_forged :
  verifyRequest Demo.ja
    (Demo.request EmptyString EmptyString "forged" context.Background)
    Demo.finders
  = Returns (Some (Demo.token Demo.HS256 false),
             Some (ValidationError 4 "signature is invalid")).
Proof. reflexivity. Qed.

Example verifyRequest_void :
  verifyRequest Demo.ja
    (Demo.request "void" EmptyString EmptyString context.Background)
    Demo.finders
  = Panics.
Proof. reflexivity. Qed.

Example Authenticate_good :
  Authenticate Demo.parseClaims Demo.ja
    (Demo.request EmptyString "good" EmptyString
       (Demo.verified (Some (Demo.token Demo.HS256 true)) None))
  = [ServeNext
       (Demo.request EmptyString "good" EmptyString
          (Demo.authenticated ["admin"]))].
Proof. reflexivity. Qed.

Example Authenticate_without_outcome :
  Authenticate Demo.parseClaims Demo.ja
    (Demo.request EmptyString "good" EmptyString context.Background)
  = [HttpError "Unauthorized" 401].
Proof. reflexivity. Qed.

Example RequiresRole_admin :
  RequiresRole Demo.ja "admin"
    (Demo.request EmptyString "good" EmptyString (Demo.authenticated ["admin"]))
  = [ServeNext
       (Demo.request EmptyString "good" EmptyString
          (Demo.authenticated ["admin"]))].
Proof. reflexivity. Qed.

Example RequiresRole_editor :
  RequiresRole Demo.ja "editor"
    (Demo.request EmptyString "good" EmptyString (Demo.authenticated ["admin"]))
  = [HttpError "Unauthorized" 401].
Proof. reflexivity. Qed.

Example RequiresRole_without_claims :
  RequiresRole Demo.ja "admin"
    (Demo.request EmptyString "good" EmptyString
       (Demo.verified (Some (Demo.token Demo.HS256 true)) None))
  = [HttpError "Unauthorized" 401].
Proof. reflexivity. Qed.

(** ** Properties of the middlewares *)
Section properties.

Context {SigningMethod ClaimValue Role : Type}.
Context `{!EqDecision SigningMethod} `{!EqDecision Role}.
Variable ParseClaims
  : gmap string ClaimValue -> @AppClaims Role * option error.

Local Abbreviation Token := (jwt.Token SigningMethod ClaimValue).
Local Abbreviation Req := (@Request SigningMethod ClaimValue Role).
Local Abbreviation Auth := (@jwtAuth SigningMethod ClaimValue Role).
Local Abbreviation Ctx :=
  (context.Context CtxKey (@CtxValue SigningMethod ClaimValue Role)).
Local Abbreviation Finders := (list (Req -> string)).
Local Abbreviation unauthorized :=
  [@HttpError SigningMethod ClaimValue Role (http.StatusText 401) 401].

Implicit Types (ja : Auth) (r : Req) (fns : Finders) (e : error).
Implicit Types (token : option Token) (err : option error).

(** *** The extraction loop *)

Lemma findToken_all_empty r fns :
  Forall (fun f => f r = EmptyString) fns ->
  findToken r fns = (EmptyString, length fns).
Proof.
  induction 1 as [|fn rest Hfn _ IH]; simpl; [done|].
  rewrite Hfn, IH. by case_decide.
Qed.

Lemma findToken_first_match r fns (k : nat) (fn : Req -> string) :
  firstMatch r fns k fn -> findToken r fns = (fn r, S k).
Proof.
  intros (Hk & Hbefore & Hfn). revert k Hk Hbefore.
  induction fns as [|f rest IH]; intros [|k] Hk Hbefore; simpl in *;
    try discriminate.
  - injection Hk as ->. by case_decide.
  - inversion Hbefore as [|? ? Hf Hrest]; subst.
    rewrite Hf, (IH k Hk Hrest). by case_decide.
Qed.

Lemma findToken_empty_inv r fns :
  fst (findToken r fns) = EmptyString ->
  Forall (fun f => f r = EmptyString) fns.
Proof.
  induction fns as [|fn rest IH]; simpl; [constructor|].
  case_decide as Hfn; simpl; [tauto|].
  destruct (findToken r rest) as [s n]; simpl in *. intros ->.
  constructor; [|by apply IH].
  destruct (decide (fn r = EmptyString)); tauto.
Qed.

(** What [verifyRequest] does once the loop has left a credential in
    [tokenStr] depends on the credential alone. *)
Lemma verifyRequest_same_credential ja r fns fns' :
  fst (findToken r fns) = fst (findToken r fns') ->
  verifyRequest ja r fns = verifyRequest ja r fns'.
Proof. unfold verifyRequest. by intros ->. Qed.

(** *** Bit tests on [ValidationError.Errors] *)

Lemma land_flag_test (Errors k : Z) :
  (0 <= k)%Z ->
  (Z.land Errors (Z.shiftl 1 k) >? 0)%Z = Z.testbit Errors k.
Proof.
  intros Hk.
  assert (Hland : Z.land Errors (Z.shiftl 1 k)
                  = if Z.testbit Errors k then Z.shiftl 1 k else 0%Z).
  { apply Z.bits_inj'. intros n Hn.
    rewrite Z.land_spec, Z.shiftl_spec by lia.
    destruct (decide (n = k)) as [->|Hne].
    - rewrite Z.sub_diag. change (Z.testbit 1 0) with true.
      rewrite andb_true_r. destruct (Z.testbit Errors k); simpl.
      + rewrite Z.shiftl_spec, Z.sub_diag by lia. done.
      + by rewrite Z.bits_0.
    - assert (Z.testbit 1 (n - k) = false) as ->.
      { destruct (Z.lt_ge_cases (n - k) 0).
        - by apply Z.testbit_neg_r.
        - apply Z.bits_above_log2; simpl; lia. }
      rewrite andb_false_r. destruct (Z.testbit Errors k).
      + rewrite Z.shiftl_spec by lia.
        destruct (Z.lt_ge_cases (n - k) 0).
        * by rewrite Z.testbit_neg_r.
        * rewrite Z.bits_above_log2; simpl; [done|lia|lia].
      + by rewrite Z.bits_0. }
  rewrite Hland. destruct (Z.testbit Errors k).
  - rewrite Z.shiftl_1_l. apply Z.gtb_lt, Z.pow_pos_nonneg; lia.
  - done.
Qed.

Lemma signals_expired (Errors : Z) (text : string) :
  (Z.land Errors jwt.ValidationErrorExpired >? 0)%Z
  = signals (ValidationError Errors text) jwt.ValidationErrorExpired.
Proof. by apply (land_flag_test Errors 4). Qed.

Lemma signals_issued_at (Errors : Z) (text : string) :
  (Z.land Errors jwt.ValidationErrorIssuedAt >? 0)%Z
  = signals (ValidationError Errors text) jwt.ValidationErrorIssuedAt.
Proof. by apply (land_flag_test Errors 5). Qed.

Lemma signals_not_valid_yet (Errors : Z) (text : string) :
  (Z.land Errors jwt.ValidationErrorNotValidYet >? 0)%Z
  = signals (ValidationError Errors text) jwt.ValidationErrorNotValidYet.
Proof. by apply (land_flag_test Errors 7). Qed.

(** *** The verifier *)

(** Past the loop, with a credential in hand, [verifyRequest] is decided by
    what the decoder returns for it. *)
Lemma verifyRequest_decoded ja r fns token err :
  fst (findToken r fns) <> EmptyString ->
  Decode ja (fst (findToken r fns)) = (token, err) ->
  verifyRequest ja r fns =
    match err with
    | Some e =>
        if signals e jwt.ValidationErrorExpired then
          Returns (token, Some ErrExpired)
        else if signals e jwt.ValidationErrorIssuedAt then
          Returns (token, Some ErrIATInvalid)
        else if signals e jwt.ValidationErrorNotValidYet then
          Returns (token, Some ErrNBFInvalid)
        else Returns (token, Some e)
    | None =>
        match token with
        | None => Panics
        | Some t =>
            if decide (jwt.Method t = signer ja) then Returns (token, None)
            else Returns (token, Some ErrAlgoInvalid)
        end
    end.
Proof.
  intros Hfound Hdec. unfold verifyRequest.
  rewrite decide_False by done. rewrite Hdec.
  destruct err as [e|].
  - destruct e as [| | | | |Errors text|other]; try done.
    by rewrite (signals_expired Errors text), (signals_issued_at Errors text),
      (signals_not_valid_yet Errors text).
  - destruct token as [t|]; [|done].
    by destruct (decide (jwt.Method t = signer ja));
      [rewrite decide_False by tauto | rewrite decide_True by done].
Qed.

(** The verifier returns for every credential on which the decoder keeps
    its contract of returning a token whenever it returns no error. *)
Lemma verifyRequest_returns ja r fns :
  Decode ja (fst (findToken r fns)) <> (None, None) ->
  exists token err, verifyRequest ja r fns = Returns (token, err).
Proof.
  intros Hcontract.
  destruct (decide (fst (findToken r fns) = EmptyString)) as [Hnone|Hfound].
  - unfold verifyRequest. rewrite decide_True by done. eauto.
  - destruct (Decode ja (fst (findToken r fns))) as [token err] eqn:Hdec.
    rewrite (verifyRequest_decoded _ _ _ _ _ Hfound Hdec).
    destruct err as [e|].
    + repeat case_match; eauto.
    + destruct token; [case_decide; eauto | done].
Qed.

(** C1: when the decoder fails on the located credential, the verifier
    classifies the failure in priority order: the expiry flag gives
    [ErrExpired]; otherwise the issued-at flag gives [ErrIATInvalid];
    otherwise the not-valid-yet flag gives [ErrNBFInvalid]; a failure with
    none of the three flags is reported as the decode error itself.  In each
    case the token the decoder returned, whole or partial, stays in the
    outcome. *)
Theorem verifyRequest_classifies_decode_error ja r fns token e :
  fst (findToken r fns) <> EmptyString ->
  Decode ja (fst (findToken r fns)) = (token, Some e) ->
  exists e', verifyRequest ja r fns = Returns (token, Some e') /\
    (signals e jwt.ValidationErrorExpired = true -> e' = ErrExpired) /\
    (signals e jwt.ValidationErrorExpired = false ->
     signals e jwt.ValidationErrorIssuedAt = true -> e' = ErrIATInvalid) /\
    (signals e jwt.ValidationErrorExpired = false ->
     signals e jwt.ValidationErrorIssuedAt = false ->
     signals e jwt.ValidationErrorNotValidYet = true -> e' = ErrNBFInvalid) /\
    (signals e jwt.ValidationErrorExpired = false ->
     signals e jwt.ValidationErrorIssuedAt = false ->
     signals e jwt.ValidationErrorNotValidYet = false -> e' = e).
Proof.
  intros Hfound Hdec.
  rewrite (verifyRequest_decoded _ _ _ _ _ Hfound Hdec).
  destruct (signals e jwt.ValidationErrorExpired);
    destruct (signals e jwt.ValidationErrorIssuedAt);
    destruct (signals e jwt.ValidationErrorNotValidYet);
    eexists; (split; [reflexivity|]); repeat split; congruence.
Qed.

(** C2: when every configured find function returns the empty string, and
    so also when none is configured, the loop leaves the empty string in
    [tokenStr] after calling each of them, and [verifyRequest] turns that
    into its result: no token, and the error [ErrNoTokenFound]. *)
Theorem verifyRequest_no_token_found ja r fns :
  Forall (fun fn => fn r = EmptyString) fns ->
  findToken r fns = (EmptyString, length fns) /\
  verifyRequest ja r fns = Returns (None, Some ErrNoTokenFound) /\
  verifyRequest ja r [] = Returns (None, Some ErrNoTokenFound).
Proof.
  intros Hall. split; [by apply findToken_all_empty|].
  split; [|done].
  unfold verifyRequest. rewrite (findToken_all_empty _ _ Hall).
  cbn [fst]. by rewrite decide_True.
Qed.

(** What [verifyRequest] returns past its loop, from the pair the decoder
    returned for the credential. *)
Local Abbreviation judged ja token err :=
  (match err with
   | Some e =>
       if signals e jwt.ValidationErrorExpired then
         Returns (token, Some ErrExpired)
       else if signals e jwt.ValidationErrorIssuedAt then
         Returns (token, Some ErrIATInvalid)
       else if signals e jwt.ValidationErrorNotValidYet then
         Returns (token, Some ErrNBFInvalid)
       else Returns (token, Some e)
   | None =>
       match token with
       | None => Panics
       | Some t =>
           if decide (jwt.Method t = signer ja) then Returns (token, None)
           else Returns (token, Some ErrAlgoInvalid)
       end
   end).

(** C3: [Verify] runs the find functions in the order query parameter,
    authorization header, cookie.  When the first of them that finds a
    credential in the request stands at position [k], the loop stops there
    after [k + 1] calls with that credential, and that credential is the
    one the verifier uses: the outcome is the judgement of what the decoder
    returns for it, and the handler hands that outcome on.  The later
    channels are not read and whatever they hold changes nothing: the
    middleware does what it would do with that find function alone. *)
Theorem Verify_first_match_wins ja r (k : nat) (fn : Req -> string)
    token err :
  firstMatch r [TokenFromQuery ja; TokenFromHeader ja; TokenFromCookie ja]
    k fn ->
  Decode ja (fn r) = (token, err) ->
  Verify ja r
    = verify ja [TokenFromQuery ja; TokenFromHeader ja; TokenFromCookie ja] r /\
  findToken r [TokenFromQuery ja; TokenFromHeader ja; TokenFromCookie ja]
    = (fn r, S k) /\
  verifyRequest ja r [TokenFromQuery ja; TokenFromHeader ja; TokenFromCookie ja]
    = judged ja token err /\
  Verify ja r
    = match judged ja token err with
      | Returns (token', err') =>
          Returns
            [ServeNext
               (WithContext r (NewContext (RequestContext r) token' err'))]
      | Panics => Panics
      end /\
  verifyRequest ja r [TokenFromQuery ja; TokenFromHeader ja; TokenFromCookie ja]
    = verifyRequest ja r [fn] /\
  Verify ja r = verify ja [fn] r.
Proof.
  intros Hfirst Hdec.
  pose proof (findToken_first_match _ _ _ _ Hfirst) as Hloop.
  assert (Hfn : fn r <> EmptyString) by apply Hfirst.
  assert (Hone : findToken r [fn] = (fn r, 1%nat)).
  { simpl. by rewrite decide_True. }
  assert (Hsame : verifyRequest ja r
            [TokenFromQuery ja; TokenFromHeader ja; TokenFromCookie ja]
          = verifyRequest ja r [fn]).
  { apply verifyRequest_same_credential. by rewrite Hloop, Hone. }
  assert (Hrun : verifyRequest ja r
            [TokenFromQuery ja; TokenFromHeader ja; TokenFromCookie ja]
          = judged ja token err).
  { apply verifyRequest_decoded; by rewrite Hloop. }
  split; [done|]. split; [done|]. split; [done|].
  split; [|split; [done|]].
  - unfold Verify, verify. rewrite Hrun.
    by destruct (judged ja token err) as [[token' err']|].
  - unfold Verify, verify. by rewrite Hsame.
Qed.

(** C4: when the decoder returns a token and no error for the located
    credential, the outcome is that token with [ErrAlgoInvalid] if the
    token's signing method differs from the configured one, and that token
    with no error exactly when the two are equal. *)
Theorem verifyRequest_checks_signing_method ja r fns (t : Token) :
  fst (findToken r fns) <> EmptyString ->
  Decode ja (fst (findToken r fns)) = (Some t, None) ->
  (jwt.Method t <> signer ja ->
   verifyRequest ja r fns = Returns (Some t, Some ErrAlgoInvalid)) /\
  (verifyRequest ja r fns = Returns (Some t, None) <->
   jwt.Method t = signer ja).
Proof.
  intros Hfound Hdec.
  rewrite (verifyRequest_decoded _ _ _ _ _ Hfound Hdec).
  case_decide as Hmethod.
  - split; [tauto|]. by split.
  - split; [done|]. split; [discriminate|tauto].
Qed.

(** C5: for every outcome [(token, err)] of the verification, the handler
    of [verify] performs one effect only, the call of the next handler,
    with the request whose context carries that outcome: it writes nothing
    on the response writer, and the next handler retrieves the outcome. *)
Theorem verify_always_forwards ja fns r token err (w : http.ResponseWriter) :
  verifyRequest ja r fns = Returns (token, err) ->
  exists effects,
    verify ja fns r = Returns effects /\
    effects
      = [ServeNext (WithContext r (NewContext (RequestContext r) token err))] /\
    written w effects = w /\
    forwarded effects
      = [WithContext r (NewContext (RequestContext r) token err)] /\
    TokenFromContext
      (RequestContext (WithContext r (NewContext (RequestContext r) token err)))
      = (token, from_option jwt.Claims ∅ token, err).
Proof.
  intros Hout.
  exists [ServeNext (WithContext r (NewContext (RequestContext r) token err))].
  split; [unfold verify; by rewrite Hout|].
  split; [done|]. split; [done|]. split; [done|].
  reflexivity.
Qed.

(** *** The two gates *)

(** Closes the two equivalences of a rejecting path of [Authenticate];
    [ground] proves the ground on which the path rejects. *)
Ltac rejected_by ground :=
  split;
  [ split; [ intros _; ground | done ]
  | split; [ intros [=] | intros Hnone; destruct Hnone; ground ] ].

Local Abbreviation withClaims r claims :=
  (WithContext r
     (context.WithValue (RequestContext r) AccessClaimsCtxKey
        (AppClaimsValue (fst (ParseClaims claims))))).

Local Abbreviation refused token claims err :=
  (err <> None \/ token = None \/
   (exists t : Token, token = Some t /\ jwt.Valid t = false) \/
   snd (ParseClaims claims) <> None).

Lemma TokenFromContext_claims (c : Ctx)
    token (claims : gmap string ClaimValue) err :
  TokenFromContext c = (token, claims, err) ->
  claims = from_option jwt.Claims ∅ token.
Proof.
  unfold TokenFromContext. intros Hget.
  repeat case_match; by simplify_eq.
Qed.

Lemma hasRole_elem_of (role : Role) (roles : list Role) :
  hasRole role roles = true <-> role ∈ roles.
Proof.
  induction roles as [|x rest IH]; simpl.
  - split; [discriminate|]. by intros ?%elem_of_nil.
  - rewrite elem_of_cons. case_decide as Hx.
    + split; [intros _; by left | done].
    + rewrite IH. split; [by right | intros [->|Hin]; done].
Qed.

Lemma runGate_cases ja (g : Gate) r :
  runGate ParseClaims ja g r = unauthorized \/
  exists r', runGate ParseClaims ja g r = [ServeNext r'].
Proof.
  destruct g as [|role]; simpl.
  - unfold Authenticate. repeat case_match; eauto.
  - unfold RequiresRole. case_match; eauto.
Qed.

(** C6: [Authenticate] answers 401 without calling the next handler exactly
    when the context carries an error, or no token, or a token whose
    validity flag is false, or a claim set that [ParseClaims] fails on; in
    every other case its one effect is the call of the next handler with the
    parsed claims attached under [AccessClaimsCtxKey].  The claim set it
    parses is the one of the carried token. *)
Theorem Authenticate_rejects_exactly_when ja r token
    (claims : gmap string ClaimValue) err :
  TokenFromContext (RequestContext r) = (token, claims, err) ->
  claims = from_option jwt.Claims ∅ token /\
  (Authenticate ParseClaims ja r = unauthorized <-> refused token claims err) /\
  (Authenticate ParseClaims ja r = [ServeNext (withClaims r claims)] <->
   ~ refused token claims err).
Proof.
  intros Hget. split; [by eapply TokenFromContext_claims|].
  unfold Authenticate. rewrite Hget.
  destruct err as [e|]; [rejected_by ltac:(by left)|].
  destruct token as [t|]; [|rejected_by ltac:(by right; left)].
  destruct (jwt.Valid t) eqn:Hvalid; simpl;
    [|rejected_by ltac:(right; right; left; by exists t)].
  destruct (ParseClaims claims) as [c [e|]] eqn:Hparse; simpl;
    [rejected_by ltac:(by right; right; right)|].
  assert (Hpass : ~ (@None error <> None \/ Some t = None \/
            (exists t' : Token, Some t = Some t' /\ jwt.Valid t' = false) \/
            @None error <> None)).
  { intros [Herr|[Htok|[(t' & Ht & Hinvalid)|Herr]]]; try done.
    injection Ht as <-. congruence. }
  split; split; done.
Qed.

(** C7: [hasRole] is membership in the slice, found by comparing each
    element in turn.  [RequiresRole] calls the next handler with the request
    as it came exactly when the required role is among the roles of the
    claims in the context, and answers 401 exactly when it is not; a context
    without claims has no roles, so the request is answered with 401. *)
Theorem RequiresRole_forwards_iff_member ja (role : Role) r :
  (forall roles : list Role, hasRole role roles = true <-> role ∈ roles) /\
  (RequiresRole ja role r = [ServeNext r] <->
   role ∈ Roles (AppClaimsFromCtx (RequestContext r))) /\
  (RequiresRole ja role r = unauthorized <->
   role ∉ Roles (AppClaimsFromCtx (RequestContext r))) /\
  (context.Value (RequestContext r) AccessClaimsCtxKey = None ->
   Roles (AppClaimsFromCtx (RequestContext r)) = [] /\
   RequiresRole ja role r = unauthorized).
Proof.
  split; [apply hasRole_elem_of|].
  unfold RequiresRole.
  pose proof (hasRole_elem_of role
                (Roles (AppClaimsFromCtx (RequestContext r)))) as Hscan.
  split; [|split].
  - destruct (hasRole role _); simpl.
    + split; [intros _; by apply Hscan | done].
    + split; [discriminate | intros Hin%Hscan; discriminate].
  - destruct (hasRole role _); simpl.
    + split; [discriminate | intros Hout; destruct Hout; by apply Hscan].
    + split; [intros _ Hin%Hscan; discriminate | done].
  - intros Habsent. unfold AppClaimsFromCtx in *. rewrite Habsent in *.
    simpl in *. split; [done|].
    destruct (hasRole role []) eqn:Hin; [|done].
    by apply Hscan, elem_of_nil in Hin.
Qed.

(** C8: any two rejections, by [Authenticate] or by [RequiresRole], for any
    requests and whatever their contexts carry, are the same single call
    [http.Error(w, http.StatusText(401), 401)]: the writer ends in the same
    state, and a fresh writer ends with status 401 and the body
    [Unauthorized]. *)
Theorem rejections_are_indistinguishable ja1 ja2 (g1 g2 : Gate) r1 r2
    (w : http.ResponseWriter) :
  forwarded (runGate ParseClaims ja1 g1 r1) = [] ->
  forwarded (runGate ParseClaims ja2 g2 r2) = [] ->
  runGate ParseClaims ja1 g1 r1 = runGate ParseClaims ja2 g2 r2 /\
  written w (runGate ParseClaims ja1 g1 r1)
    = written w (runGate ParseClaims ja2 g2 r2) /\
  written w (runGate ParseClaims ja1 g1 r1)
    = http.Error w (http.StatusText 401) 401 /\
  http.Status (written http.NewRecorder (runGate ParseClaims ja1 g1 r1))
    = Some 401%Z /\
  http.Body (written http.NewRecorder (runGate ParseClaims ja1 g1 r1))
    = "Unauthorized" +:+ http.newline.
Proof.
  intros Hrej1 Hrej2.
  destruct (runGate_cases ja1 g1 r1) as [H1|[r1' H1]]; rewrite H1 in *;
    [|discriminate].
  destruct (runGate_cases ja2 g2 r2) as [H2|[r2' H2]]; rewrite H2 in *;
    [|discriminate].
  by repeat split.
Qed.

(** C9: a decode error that is not a [*jwt.ValidationError] is returned as
    it is, next to the token the decoder returned; no time-based sentinel
    replaces it, whatever the failure was. *)
Theorem verifyRequest_other_error_unchanged ja r fns token e :
  fst (findToken r fns) <> EmptyString ->
  Decode ja (fst (findToken r fns)) = (token, Some e) ->
  (forall (Errors : Z) (text : string), e <> ValidationError Errors text) ->
  verifyRequest ja r fns = Returns (token, Some e).
Proof.
  intros Hfound Hdec Hother.
  rewrite (verifyRequest_decoded _ _ _ _ _ Hfound Hdec).
  destruct e as [| | | | |Errors text|other]; try done.
  by destruct (Hother Errors text).
Qed.

(** C10: an outcome without error has a token; it is the token the decoder
    returned, without error, for the credential the loop located, and its
    signing method is the configured one. *)
Theorem verifyRequest_success_invariant ja r fns token :
  verifyRequest ja r fns = Returns (token, None) ->
  exists t : Token,
    token = Some t /\
    fst (findToken r fns) <> EmptyString /\
    Decode ja (fst (findToken r fns)) = (Some t, None) /\
    jwt.Method t = signer ja.
Proof.
  destruct (decide (fst (findToken r fns) = EmptyString)) as [Hnone|Hfound].
  { unfold verifyRequest. by rewrite decide_True. }
  destruct (Decode ja (fst (findToken r fns))) as [token' err] eqn:Hdec.
  rewrite (verifyRequest_decoded _ _ _ _ _ Hfound Hdec).
  destruct err as [e|]; [repeat case_match; discriminate|].
  destruct token' as [t|]; [|discriminate].
  case_decide; [|discriminate].
  intros [= <-]. by exists t.
Qed.

End properties.

(** ** The theorems at work on the deployment *)

(** A cookie whose token is expired, used before its issue and not yet
    valid at once: the expiry wins. *)
Lemma verifyRequest_classifies_decode_error_witness :
  verifyRequest Demo.ja
    (Demo.request EmptyString EmptyString "stale" context.Background)
    Demo.finders
  = Returns (Some (Demo.token Demo.HS256 false), Some ErrExpired).
Proof.
  destruct (verifyRequest_classifies_decode_error Demo.ja
              (Demo.request EmptyString EmptyString "stale" context.Background)
              Demo.finders (Some (Demo.token Demo.HS256 false))
              (ValidationError (16 + 32 + 128) "token is expired"))
    as (e' & Hrun & Hexpired & _).
  - vm_compute. discriminate.
  - reflexivity.
  - rewrite Hrun, (Hexpired eq_refl). reflexivity.
Defined.

(** A request without credential in any of the three channels. *)
Lemma verifyRequest_no_token_found_witness :
  findToken
    (Demo.request EmptyString EmptyString EmptyString context.Background)
    Demo.finders = (EmptyString, 3%nat) /\
  verifyRequest Demo.ja
    (Demo.request EmptyString EmptyString EmptyString context.Background)
    Demo.finders = Returns (None, Some ErrNoTokenFound).
Proof.
  destruct (verifyRequest_no_token_found Demo.ja
              (Demo.request EmptyString EmptyString EmptyString
                 context.Background)
              Demo.finders) as (Hloop & Hrun & _).
  - repeat constructor.
  - split; [exact Hloop | exact Hrun].
Defined.

(** No query parameter, a bearer header and a cookie: the header wins after
    two calls, its token is the one decoded and judged (signed with RS256
    where HS256 is configured), and the cookie is not read. *)
Lemma Verify_first_match_wins_witness :
  findToken (Demo.request EmptyString "rsa" "expired" context.Background)
    Demo.finders = ("rsa", 2%nat) /\
  verifyRequest Demo.ja
    (Demo.request EmptyString "rsa" "expired" context.Background)
    Demo.finders
  = Returns (Some (Demo.token Demo.RS256 true), Some ErrAlgoInvalid) /\
  Verify Demo.ja (Demo.request EmptyString "rsa" "expired" context.Background)
  = Returns
      [ServeNext
         (Demo.request EmptyString "rsa" "expired"
            (Demo.verified (Some (Demo.token Demo.RS256 true))
               (Some ErrAlgoInvalid)))] /\
  Verify Demo.ja (Demo.request EmptyString "rsa" "expired" context.Background)
  = verify Demo.ja [Demo.fromHeader]
      (Demo.request EmptyString "rsa" "expired" context.Background).
Proof.
  destruct (Verify_first_match_wins Demo.ja
              (Demo.request EmptyString "rsa" "expired" context.Background)
              1 Demo.fromHeader (Some (Demo.token Demo.RS256 true)) None)
    as (_ & Hloop & Hrun & Hhandler & _ & Hsame).
  - split; [reflexivity|]. split; [repeat constructor|].
    vm_compute. discriminate.
  - reflexivity.
  - split; [exact Hloop|]. split; [exact Hrun|].
    split; [exact Hhandler | exact Hsame].
Defined.

(** A token signed with RS256 where HS256 is configured. *)
Lemma verifyRequest_checks_signing_method_witness :
  verifyRequest Demo.ja
    (Demo.request "rsa" EmptyString EmptyString context.Background)
    Demo.finders
  = Returns (Some (Demo.token Demo.RS256 true), Some ErrAlgoInvalid).
Proof.
  apply (verifyRequest_checks_signing_method Demo.ja
           (Demo.request "rsa" EmptyString EmptyString context.Background)
           Demo.finders (Demo.token Demo.RS256 true)).
  - vm_compute. discriminate.
  - reflexivity.
  - simpl. discriminate.
Defined.

(** An expired token is forwarded with its error, not answered. *)
Lemma verify_always_forwards_witness :
  verify Demo.ja Demo.finders
    (Demo.request "expired" EmptyString EmptyString context.Background)
  = Returns
      [ServeNext
         (Demo.request "expired" EmptyString EmptyString
            (Demo.verified (Some (Demo.token Demo.HS256 false))
               (Some ErrExpired)))].
Proof.
  destruct (verify_always_forwards Demo.ja Demo.finders
              (Demo.request "expired" EmptyString EmptyString
                 context.Background)
              (Some (Demo.token Demo.HS256 false)) (Some ErrExpired)
              http.NewRecorder eq_refl)
    as (effects & Hrun & -> & _).
  exact Hrun.
Defined.

(** A context that carries a token and the error [ErrExpired]. *)
Lemma Authenticate_rejects_exactly_when_witness :
  Authenticate Demo.parseClaims Demo.ja
    (Demo.request "expired" EmptyString EmptyString
       (Demo.verified (Some (Demo.token Demo.HS256 false)) (Some ErrExpired)))
  = [HttpError "Unauthorized" 401].
Proof.
  apply (Authenticate_rejects_exactly_when Demo.parseClaims Demo.ja
           (Demo.request "expired" EmptyString EmptyString
              (Demo.verified (Some (Demo.token Demo.HS256 false))
                 (Some ErrExpired)))
           (Some (Demo.token Demo.HS256 false)) Demo.adminClaims
           (Some ErrExpired) eq_refl).
  left. discriminate.
Defined.

(** An expired token at [Authenticate] and a missing role at
    [RequiresRole]: the same answer. *)
Lemma rejections_are_indistinguishable_witness :
  runGate Demo.parseClaims Demo.ja AuthenticateGate
    (Demo.request "expired" EmptyString EmptyString
       (Demo.verified (Some (Demo.token Demo.HS256 false)) (Some ErrExpired)))
  = runGate Demo.parseClaims Demo.ja (RequiresRoleGate "editor")
      (Demo.request "good" EmptyString EmptyString
         (Demo.authenticated ["admin"])) /\
  http.Status
    (written http.NewRecorder
       (runGate Demo.parseClaims Demo.ja AuthenticateGate
          (Demo.request "expired" EmptyString EmptyString
             (Demo.verified (Some (Demo.token Demo.HS256 false))
                (Some ErrExpired)))))
  = Some 401%Z.
Proof.
  destruct (rejections_are_indistinguishable Demo.parseClaims Demo.ja Demo.ja
              AuthenticateGate (RequiresRoleGate "editor")
              (Demo.request "expired" EmptyString EmptyString
                 (Demo.verified (Some (Demo.token Demo.HS256 false))
                    (Some ErrExpired)))
              (Demo.request "good" EmptyString EmptyString
                 (Demo.authenticated ["admin"]))
              http.NewRecorder)
    as (Hsame & _ & _ & Hstatus & _).
  - reflexivity.
  - reflexivity.
  - split; [exact Hsame | exact Hstatus].
Defined.

(** A decoder failure of another type that tells of an expired token is
    passed on as it is. *)
Lemma verifyRequest_other_error_unchanged_witness :
  verifyRequest Demo.ja
    (Demo.request EmptyString "keyless" EmptyString context.Background)
    Demo.finders
  = Returns (Some (Demo.token Demo.HS256 false),
             Some (OtherError "token is expired")).
Proof.
  apply (verifyRequest_other_error_unchanged Demo.ja
           (Demo.request EmptyString "keyless" EmptyString context.Background)
           Demo.finders).
  - vm_compute. discriminate.
  - reflexivity.
  - discriminate.
Defined.

(** A good token in the query parameter. *)
Lemma verifyRequest_success_invariant_witness :
  exists t : Demo.Tok,
    Some (Demo.token Demo.HS256 true) = Some t /\
    fst (findToken
           (Demo.request "good" EmptyString EmptyString context.Background)
           Demo.finders) <> EmptyString /\
    Decode Demo.ja
      (fst (findToken
              (Demo.request "good" EmptyString EmptyString context.Background)
              Demo.finders)) = (Some t, None) /\
    jwt.Method t = signer Demo.ja.
Proof.
  apply (verifyRequest_success_invariant Demo.ja
           (Demo.request "good" EmptyString EmptyString context.Background)
           Demo.finders (Some (Demo.token Demo.HS256 true))).
  reflexivity.
Defined.

(** ** Further properties of the middlewares *)
Section further_properties.

Context {SigningMethod ClaimValue Role : Type}.
Context `{!EqDecision SigningMethod} `{!EqDecision Role}.
Variable ParseClaims
  : gmap string ClaimValue -> @AppClaims Role * option error.

Local Abbreviation Token := (jwt.Token SigningMethod ClaimValue).
Local Abbreviation Req := (@Request SigningMethod ClaimValue Role).
Local Abbreviation Auth := (@jwtAuth SigningMethod ClaimValue Role).
Local Abbreviation Ctx :=
  (context.Context CtxKey (@CtxValue SigningMethod ClaimValue Role)).
Local Abbreviation Finders := (list (Req -> string)).
Local Abbreviation unauthorized :=
  [@HttpError SigningMethod ClaimValue Role (http.StatusText 401) 401].

Implicit Types (ja : Auth) (r : Req) (fns : Finders) (e : error).
Implicit Types (token : option Token) (err : option error).

(** *** The extraction loop, for any list of find functions *)

Lemma findToken_app r fns1 fns2 :
  findToken r (fns1 ++ fns2) =
    if decide (fst (findToken r fns1) = EmptyString) then
      (fst (findToken r fns2),
       (length fns1 + snd (findToken r fns2))%nat)
    else findToken r fns1.
Proof.
  induction fns1 as [|fn rest IH]; simpl.
  - by destruct (findToken r fns2).
  - destruct (decide (fn r <> EmptyString)) as [Hfn|Hfn]; simpl.
    + by rewrite decide_False.
    + rewrite IH. destruct (findToken r rest) as [s n]; simpl.
      by destruct (decide (s = EmptyString)).
Qed.

(** X1: the loop either runs through the whole list, every find function
    returning the empty string, or stops at the first find function that
    returns a credential, with that credential, having called the find
    functions up to that one and no other. *)
Theorem findToken_exhausts_or_stops r fns :
  (Forall (fun f => f r = EmptyString) fns /\
   findToken r fns = (EmptyString, length fns)) \/
  (exists (k : nat) (fn : Req -> string),
     firstMatch r fns k fn /\ findToken r fns = (fn r, S k)).
Proof.
  induction fns as [|f rest IH].
  - left. by split; [constructor|].
  - destruct (decide (f r = EmptyString)) as [Hf|Hf].
    + destruct IH as [[Hall Hloop]|(k & fn & Hfirst & Hloop)].
      * left. split; [by constructor|].
        apply findToken_all_empty. by constructor.
      * right. exists (S k), fn.
        assert (Hfirst' : firstMatch r (f :: rest) (S k) fn).
        { destruct Hfirst as (Hk & Hbefore & Hfn).
          split; [done|]. split; [by constructor | done]. }
        split; [done|]. by apply findToken_first_match.
    + right. exists 0%nat, f.
      assert (Hfirst : firstMatch r (f :: rest) 0 f).
      { split; [done|]. split; [constructor | done]. }
      split; [done|]. by apply findToken_first_match.
Qed.

(** X2: configuring the find functions [fns1] followed by [fns2] is running
    [fns1] and, only when they find nothing, [fns2]: the loop then adds the
    calls of both; listing the same find functions twice changes nothing. *)
Theorem verifyRequest_app ja r fns1 fns2 :
  findToken r (fns1 ++ fns2) =
    (if decide (fst (findToken r fns1) = EmptyString) then
       (fst (findToken r fns2), (length fns1 + snd (findToken r fns2))%nat)
     else findToken r fns1) /\
  verifyRequest ja r (fns1 ++ fns2) =
    (if decide (fst (findToken r fns1) = EmptyString) then
       verifyRequest ja r fns2
     else verifyRequest ja r fns1) /\
  verifyRequest ja r (fns1 ++ fns1) = verifyRequest ja r fns1.
Proof.
  split; [apply findToken_app|].
  assert (Happ : forall fns fns',
            verifyRequest ja r (fns ++ fns') =
              if decide (fst (findToken r fns) = EmptyString) then
                verifyRequest ja r fns'
              else verifyRequest ja r fns).
  { intros fns fns'.
    destruct (decide (fst (findToken r fns) = EmptyString)) as [Hnone|Hsome];
      apply verifyRequest_same_credential; rewrite findToken_app;
      [by rewrite decide_True | by rewrite decide_False]. }
  split; [apply Happ|]. rewrite Happ. by case_decide.
Qed.

(** *** The outcomes of the verifier *)

(** X3: when a credential was found and the decoder returns neither a
    token nor an error for it, [verifyRequest] panics at [token.Method]; so
    does the handler of [verify], which then reaches no next handler,
    whatever that handler is. *)
Theorem verifyRequest_panics_on_nil_token ja r fns :
  fst (findToken r fns) <> EmptyString ->
  Decode ja (fst (findToken r fns)) = (None, None) ->
  verifyRequest ja r fns = Panics /\
  verify ja fns r = Panics /\
  forall next : Req -> list Effect,
    withNextRun (verify ja fns r) next = Panics.
Proof.
  intros Hfound Hdec.
  assert (Hrun : verifyRequest ja r fns = Panics).
  { by rewrite (verifyRequest_decoded _ _ _ _ _ Hfound Hdec). }
  assert (Hhandler : verify ja fns r = Panics).
  { unfold verify. by rewrite Hrun. }
  split; [done|]. split; [done|]. intros next. by rewrite Hhandler.
Qed.

(** X4: where an outcome with an error comes from.  Either no find function
    found a credential, and the outcome is no token with [ErrNoTokenFound];
    or the decoder failed on the located credential, and the outcome is the
    decoder's token with the decoder's error or one of the three time-based
    sentinels; or the decoder succeeded with a token whose signing method is
    not the configured one, and the outcome is that token with
    [ErrAlgoInvalid].  So an outcome carries [ErrAlgoInvalid] only after a
    decode without error of a token with another signing method, or when
    the decoder itself failed with [ErrAlgoInvalid], which is handed on as
    it is. *)
Theorem verifyRequest_error_origin ja r fns token (e' : error) :
  verifyRequest ja r fns = Returns (token, Some e') ->
  ((Forall (fun f => f r = EmptyString) fns /\
    token = None /\ e' = ErrNoTokenFound) \/
   (fst (findToken r fns) <> EmptyString /\
    exists e, Decode ja (fst (findToken r fns)) = (token, Some e) /\
      (e' = e \/ e' = ErrExpired \/ e' = ErrIATInvalid \/
       e' = ErrNBFInvalid)) \/
   (fst (findToken r fns) <> EmptyString /\
    exists t : Token, token = Some t /\
      Decode ja (fst (findToken r fns)) = (Some t, None) /\
      jwt.Method t <> signer ja /\ e' = ErrAlgoInvalid)) /\
  (e' = ErrAlgoInvalid ->
   fst (findToken r fns) <> EmptyString /\
   (Decode ja (fst (findToken r fns)) = (token, Some ErrAlgoInvalid) \/
    exists t : Token, token = Some t /\
      Decode ja (fst (findToken r fns)) = (Some t, None) /\
      jwt.Method t <> signer ja)).
Proof.
  intros Hout.
  assert (Horigin :
    (Forall (fun f => f r = EmptyString) fns /\
     token = None /\ e' = ErrNoTokenFound) \/
    (fst (findToken r fns) <> EmptyString /\
     exists e, Decode ja (fst (findToken r fns)) = (token, Some e) /\
       (e' = e \/ e' = ErrExpired \/ e' = ErrIATInvalid \/
        e' = ErrNBFInvalid)) \/
    (fst (findToken r fns) <> EmptyString /\
     exists t : Token, token = Some t /\
       Decode ja (fst (findToken r fns)) = (Some t, None) /\
       jwt.Method t <> signer ja /\ e' = ErrAlgoInvalid)).
  { revert Hout.
    destruct (decide (fst (findToken r fns) = EmptyString)) as [Hnone|Hfound].
    { unfold verifyRequest. rewrite decide_True by done. intros [= <- <-].
      left. split; [by apply findToken_empty_inv | done]. }
    destruct (Decode ja (fst (findToken r fns))) as [token0 err] eqn:Hdec.
    rewrite (verifyRequest_decoded _ _ _ _ _ Hfound Hdec).
    destruct err as [e|].
    - intros Hout. right; left. split; [done|]. exists e.
      repeat case_match; injection Hout as <- <-; auto.
    - destruct token0 as [t|]; [|discriminate].
      case_decide as Hmethod; [discriminate|]. intros [= <- <-].
      right; right. split; [done|]. by exists t. }
  split; [exact Horigin|]. intros ->.
  destruct Horigin as [(_ & _ & [=])|[(Hfound & e & Hdec & He)|Hmethod]].
  - split; [done|]. left.
    destruct He as [<-|[[=]|[[=]|[=]]]]. exact Hdec.
  - destruct Hmethod as (Hfound & t & -> & Hdec & Hne & _).
    split; [done|]. right. by exists t.
Qed.

(** *** The flags the classification reads *)

Lemma timeFlags_bits (n : Z) :
  (0 <= n)%Z -> Z.testbit timeFlags n = true -> n = 4%Z \/ n = 5%Z \/ n = 7%Z.
Proof.
  intros Hn Hbit.
  destruct (Z.lt_ge_cases 7 n) as [Hhigh|Hlow].
  - rewrite Z.bits_above_log2 in Hbit; [done|done|].
    change (Z.log2 timeFlags) with 7%Z. lia.
  - assert (n = 0 \/ n = 1 \/ n = 2 \/ n = 3 \/ n = 4 \/ n = 5 \/
            n = 6 \/ n = 7)%Z as Hcases by lia.
    destruct Hcases as [->|[->|[->|[->|[->|[->|[->| ->]]]]]]];
      first [discriminate Hbit | tauto].
Qed.

Lemma signals_masked (Errors : Z) (text : string) (flag : Z) :
  Z.testbit timeFlags (Z.log2 flag) = true ->
  signals (ValidationError Errors text) flag
  = Z.testbit (Z.land Errors timeFlags) (Z.log2 flag).
Proof. intros Hflag. simpl. by rewrite Z.land_spec, Hflag, andb_true_r. Qed.

Lemma timeFlags_some_signal (Errors : Z) (text : string) :
  Z.land Errors timeFlags <> 0%Z ->
  signals (ValidationError Errors text) jwt.ValidationErrorExpired = true \/
  signals (ValidationError Errors text) jwt.ValidationErrorIssuedAt = true \/
  signals (ValidationError Errors text) jwt.ValidationErrorNotValidYet = true.
Proof.
  intros Hmask. simpl.
  change (Z.log2 jwt.ValidationErrorExpired) with 4%Z.
  change (Z.log2 jwt.ValidationErrorIssuedAt) with 5%Z.
  change (Z.log2 jwt.ValidationErrorNotValidYet) with 7%Z.
  destruct (Z.testbit Errors 4) eqn:H4; [by left|].
  destruct (Z.testbit Errors 5) eqn:H5; [by right; left|].
  destruct (Z.testbit Errors 7) eqn:H7; [by right; right|].
  destruct Hmask. apply Z.bits_inj'. intros n Hn.
  rewrite Z.land_spec, Z.bits_0.
  destruct (Z.testbit timeFlags n) eqn:Hbit; [|apply andb_false_r].
  destruct (timeFlags_bits n Hn Hbit) as [->|[->| ->]];
    by rewrite ?H4, ?H5, ?H7.
Qed.

(** X5: when the decoder fails with a [*jwt.ValidationError] that has one
    of the three time flags set, the outcome is a time-based sentinel chosen
    by those three flags alone: the other flags of [Errors] (malformed,
    signature invalid, ...) and the text of the error do not reach it. *)
Theorem classification_reads_time_flags ja ja' r r' fns fns' token
    (Errors Errors' : Z) (text text' : string) :
  fst (findToken r fns) <> EmptyString ->
  fst (findToken r' fns') <> EmptyString ->
  Decode ja (fst (findToken r fns))
    = (token, Some (ValidationError Errors text)) ->
  Decode ja' (fst (findToken r' fns'))
    = (token, Some (ValidationError Errors' text')) ->
  Z.land Errors timeFlags = Z.land Errors' timeFlags ->
  Z.land Errors timeFlags <> 0%Z ->
  verifyRequest ja r fns = verifyRequest ja' r' fns' /\
  exists e', verifyRequest ja r fns = Returns (token, Some e') /\
    (e' = ErrExpired \/ e' = ErrIATInvalid \/ e' = ErrNBFInvalid).
Proof.
  intros Hfound Hfound' Hdec Hdec' Hsame Hmask.
  rewrite (verifyRequest_decoded _ _ _ _ _ Hfound Hdec).
  rewrite (verifyRequest_decoded _ _ _ _ _ Hfound' Hdec').
  pose proof (timeFlags_some_signal Errors text Hmask) as Hsignal.
  rewrite !(signals_masked Errors' text') by done.
  rewrite !(signals_masked Errors text) in * by done.
  rewrite <- Hsame.
  destruct (Z.testbit (Z.land Errors timeFlags)
              (Z.log2 jwt.ValidationErrorExpired)); [eauto 6|].
  destruct (Z.testbit (Z.land Errors timeFlags)
              (Z.log2 jwt.ValidationErrorIssuedAt)); [eauto 6|].
  destruct (Z.testbit (Z.land Errors timeFlags)
              (Z.log2 jwt.ValidationErrorNotValidYet)); [eauto 6|].
  by destruct Hsignal as [?|[?|?]].
Qed.

(** *** What a gate does to the request and to the writer *)

Local Abbreviation sameData r r' :=
  (URLQuery r' = URLQuery r /\ Header r' = Header r /\ Cookies r' = Cookies r).

(** X6: a run of [Authenticate] or [RequiresRole] is one effect.  Either it
    answers 401 and the next handler is not called, or it calls the next
    handler once and writes nothing; it never does both.  The request it
    hands on has the query, the header and the cookies it was given, and
    every context value under another key than [AccessClaimsCtxKey]. *)
Theorem gate_answers_or_forwards ja (g : Gate) r (w : http.ResponseWriter) :
  (runGate ParseClaims ja g r = unauthorized /\
   forwarded (runGate ParseClaims ja g r) = [] /\
   written w (runGate ParseClaims ja g r)
     = http.Error w (http.StatusText 401) 401) \/
  (exists r', runGate ParseClaims ja g r = [ServeNext r'] /\
     written w (runGate ParseClaims ja g r) = w /\
     sameData r r' /\
     forall key : CtxKey, key <> AccessClaimsCtxKey ->
       context.Value (RequestContext r') key
       = context.Value (RequestContext r) key).
Proof.
  destruct g as [|role]; simpl.
  - unfold Authenticate.
    destruct (TokenFromContext (RequestContext r)) as [[token claims] err].
    destruct err as [e|]; [by left|].
    destruct token as [t|]; [|by left].
    destruct (jwt.Valid t); simpl; [|by left].
    destruct (ParseClaims claims) as [c [e|]]; [by left|].
    right. eexists. split; [reflexivity|]. split; [done|]. split; [done|].
    intros key Hkey. simpl. by rewrite decide_False.
  - unfold RequiresRole. destruct (hasRole role _); simpl; [|by left].
    right. exists r. by repeat split.
Qed.

(** X7: [Authenticate] puts the claims it parsed where [AppClaimsFromCtx]
    looks: in the request it hands on, the value under [AccessClaimsCtxKey]
    is the result of [ParseClaims], whatever was stored under that key
    before, and the verification outcome is still the one it read. *)
Theorem Authenticate_attaches_claims ja r r' :
  Authenticate ParseClaims ja r = [ServeNext r'] ->
  exists (claims : gmap string ClaimValue) (c : AppClaims),
    ParseClaims claims = (c, None) /\
    context.Value (RequestContext r') AccessClaimsCtxKey
      = Some (AppClaimsValue c) /\
    AppClaimsFromCtx (RequestContext r') = c /\
    TokenFromContext (RequestContext r')
      = TokenFromContext (RequestContext r).
Proof.
  unfold Authenticate.
  destruct (TokenFromContext (RequestContext r)) as [[token claims] err]
    eqn:Hget.
  destruct err as [e|]; [discriminate|].
  destruct token as [t|]; [|discriminate].
  destruct (jwt.Valid t); simpl; [|discriminate].
  destruct (ParseClaims claims) as [c [e|]] eqn:Hparse; [discriminate|].
  intros [= <-]. exists claims, c. split; [done|]. split; [done|].
  split; [done|]. by rewrite <- Hget.
Qed.

(** *** Roles *)

(** X8: what [hasRole] answers depends on which roles the slice holds, not
    on their order or on how often each occurs. *)
Theorem hasRole_same_roles (role : Role) (roles roles' : list Role) :
  (forall x : Role, x ∈ roles <-> x ∈ roles') ->
  hasRole role roles = hasRole role roles'.
Proof.
  intros Hsame.
  pose proof (hasRole_elem_of role roles) as Hin.
  pose proof (hasRole_elem_of role roles') as Hin'.
  destruct (hasRole role roles), (hasRole role roles'); try done.
  - assert (false = true) by (apply Hin', Hsame, Hin; done). done.
  - assert (false = true) by (apply Hin, Hsame, Hin'; done). done.
Qed.

(** X9: two [RequiresRole] gates in a row let a request through exactly
    when the claims hold both roles, hand it on as it came, answer 401
    once otherwise, and may be put in either order. *)
Theorem RequiresRole_chain ja (a b : Role) r :
  withNext (RequiresRole ja a r) (RequiresRole ja b)
    = (if bool_decide (a ∈ Roles (AppClaimsFromCtx (RequestContext r)) /\
                       b ∈ Roles (AppClaimsFromCtx (RequestContext r)))
       then [ServeNext r] else unauthorized) /\
  withNext (RequiresRole ja a r) (RequiresRole ja b)
    = withNext (RequiresRole ja b r) (RequiresRole ja a).
Proof.
  pose proof (hasRole_elem_of a
                (Roles (AppClaimsFromCtx (RequestContext r)))) as Ha.
  pose proof (hasRole_elem_of b
                (Roles (AppClaimsFromCtx (RequestContext r)))) as Hb.
  unfold withNext, RequiresRole.
  destruct (hasRole a _) eqn:Hha; simpl; rewrite ?Hha;
    destruct (hasRole b _) eqn:Hhb; simpl; rewrite ?Hha, ?Hhb; simpl.
  - split; [|done]. rewrite bool_decide_eq_true_2; [done|].
    split; [by apply Ha | by apply Hb].
  - split; [|done]. rewrite bool_decide_eq_false_2; [done|].
    intros [_ Hin%Hb]. discriminate.
  - split; [|done]. rewrite bool_decide_eq_false_2; [done|].
    intros [Hin%Ha _]. discriminate.
  - split; [|done]. rewrite bool_decide_eq_false_2; [done|].
    intros [Hin%Ha _]. discriminate.
Qed.

(** *** The three middlewares in a row *)

Local Abbreviation pipeline ja fns role r :=
  (withNextRun (verify ja fns r)
     (fun r1 => withNext (Authenticate ParseClaims ja r1)
                  (RequiresRole ja role))).

Local Abbreviation admitted token err role :=
  (err = None /\
   exists t : Token, token = Some t /\ jwt.Valid t = true /\
     snd (ParseClaims (jwt.Claims t)) = None /\
     role ∈ Roles (fst (ParseClaims (jwt.Claims t)))).

(** X10: the handler of [verify], then [Authenticate], then
    [RequiresRole role].  For every outcome of the verification, the chain
    reaches the handler behind it exactly when the outcome has no error and
    a token that is valid, whose claims parse, and whose parsed roles hold
    [role]; in every other case the chain answers 401, once.  The request
    that gets through has the data it came with and carries the outcome and
    the parsed claims in its context. *)
Theorem pipeline_admits_exactly ja fns (role : Role) r token err :
  verifyRequest ja r fns = Returns (token, err) ->
  ((exists r', pipeline ja fns role r = Returns [ServeNext r']) <->
   admitted token err role) /\
  (pipeline ja fns role r = Returns unauthorized <->
   ~ admitted token err role) /\
  (forall r', pipeline ja fns role r = Returns [ServeNext r'] ->
     sameData r r' /\
     TokenFromContext (RequestContext r')
       = (token, from_option jwt.Claims ∅ token, err) /\
     AppClaimsFromCtx (RequestContext r')
       = fst (ParseClaims (from_option jwt.Claims ∅ token))).
Proof.
  intros Hout. unfold verify. rewrite Hout. simpl.
  unfold Authenticate. simpl.
  destruct err as [e|]; simpl.
  { split; [|split]; [split|split|]; try done.
    - by intros [r' [=]].
    - by intros [[=] _].
    - by intros _ [[=] _]. }
  destruct token as [t|]; simpl.
  2: { split; [|split]; [split|split|]; try done.
       - by intros [r' [=]].
       - by intros (_ & t & [=] & _).
       - by intros _ (_ & t & [=] & _). }
  destruct (jwt.Valid t) eqn:Hvalid; simpl.
  2: { split; [|split]; [split|split|]; try done.
       - by intros [r' [=]].
       - intros (_ & t' & [= <-] & Hv & _). congruence.
       - intros _ (_ & t' & [= <-] & Hv & _). congruence. }
  destruct (ParseClaims (jwt.Claims t)) as [c [e|]] eqn:Hparse; simpl.
  { split; [|split]; [split|split|]; try done.
    - by intros [r' [=]].
    - intros (_ & t' & [= <-] & _ & Hp & _).
      rewrite Hparse in Hp. discriminate.
    - intros _ (_ & t' & [= <-] & _ & Hp & _).
      rewrite Hparse in Hp. discriminate. }
  unfold RequiresRole, AppClaimsFromCtx, RequestContext, WithContext. simpl.
  pose proof (hasRole_elem_of role (Roles c)) as Hscan.
  destruct (hasRole role (Roles c)) eqn:Hrole; simpl.
  - assert (Hadm : admitted (Some t) (@None error) role).
    { split; [done|]. exists t. rewrite Hparse. simpl.
      repeat split; try done. by apply Hscan. }
    split; [|split]; [split|split|]; try done.
    + intros _. by eexists.
    + intros r' [= <-]. by repeat split.
  - assert (Hnot : ~ admitted (Some t) (@None error) role).
    { intros (_ & t' & [= <-] & _ & _ & Hin). rewrite Hparse in Hin.
      apply Hscan in Hin. discriminate. }
    split; [|split]; [split|split|]; try done.
    by intros [r' [=]].
Qed.

End further_properties.

(** ** The further theorems at work on the deployments *)

(** A token signed with RS256: the decoder succeeded, the check of the
    signing method did not. *)
Lemma verifyRequest_error_origin_witness :
  fst (findToken
         (Demo.request "rsa" EmptyString EmptyString context.Background)
         Demo.finders) <> EmptyString /\
  (Decode Demo.ja
     (fst (findToken
             (Demo.request "rsa" EmptyString EmptyString context.Background)
             Demo.finders))
   = (Some (Demo.token Demo.RS256 true), Some ErrAlgoInvalid) \/
   exists t : Demo.Tok,
     Some (Demo.token Demo.RS256 true) = Some t /\
     Decode Demo.ja
       (fst (findToken
               (Demo.request "rsa" EmptyString EmptyString context.Background)
               Demo.finders))
     = (Some t, None) /\
     jwt.Method t <> signer Demo.ja).
Proof.
  apply (verifyRequest_error_origin Demo.ja
           (Demo.request "rsa" EmptyString EmptyString context.Background)
           Demo.finders (Some (Demo.token Demo.RS256 true)) ErrAlgoInvalid).
  - reflexivity.
  - reflexivity.
Defined.

(** A credential for which the decoder returns nothing at all. *)
Lemma verifyRequest_panics_on_nil_token_witness :
  verifyRequest Demo.ja
    (Demo.request "void" EmptyString EmptyString context.Background)
    Demo.finders = Panics /\
  verify Demo.ja Demo.finders
    (Demo.request "void" EmptyString EmptyString context.Background)
  = Panics.
Proof.
  destruct (verifyRequest_panics_on_nil_token Demo.ja
              (Demo.request "void" EmptyString EmptyString context.Background)
              Demo.finders) as (Hrun & Hhandler & _).
  - vm_compute. discriminate.
  - reflexivity.
  - split; [exact Hrun | exact Hhandler].
Defined.

(** The same expired token, seen by a decoder that reports the expiry
    alone and by one that reports an invalid signature too. *)
Lemma classification_reads_time_flags_witness :
  verifyRequest Demo.ja
    (Demo.request "expired" EmptyString EmptyString context.Background)
    Demo.finders
  = verifyRequest Strict.ja
      (Demo.request EmptyString EmptyString "expired" context.Background)
      Demo.finders.
Proof.
  apply (classification_reads_time_flags Demo.ja Strict.ja
           (Demo.request "expired" EmptyString EmptyString context.Background)
           (Demo.request EmptyString EmptyString "expired" context.Background)
           Demo.finders Demo.finders
           (Some (Demo.token Demo.HS256 false))
           16 (4 + 16) "token is expired" "signature is invalid").
  - vm_compute. discriminate.
  - vm_compute. discriminate.
  - reflexivity.
  - reflexivity.
  - reflexivity.
  - vm_compute. discriminate.
Defined.

(** A context that came with claims of its own under the claims key: the
    parsed claims take their place. *)
Lemma Authenticate_attaches_claims_witness :
  exists (claims : gmap string string) (c : @AppClaims string),
    Demo.parseClaims claims = (c, None) /\
    context.Value
      (RequestContext
         (Demo.request "good" EmptyString EmptyString
            (context.WithValue (Demo.authenticated ["root"])
               AccessClaimsCtxKey
               (AppClaimsValue {| ID := 7; Roles := ["admin"] |}))))
      AccessClaimsCtxKey
    = Some (AppClaimsValue c) /\
    AppClaimsFromCtx
      (RequestContext
         (Demo.request "good" EmptyString EmptyString
            (context.WithValue (Demo.authenticated ["root"])
               AccessClaimsCtxKey
               (AppClaimsValue {| ID := 7; Roles := ["admin"] |}))))
    = c /\
    TokenFromContext
      (RequestContext
         (Demo.request "good" EmptyString EmptyString
            (context.WithValue (Demo.authenticated ["root"])
               AccessClaimsCtxKey
               (AppClaimsValue {| ID := 7; Roles := ["admin"] |}))))
    = TokenFromContext
        (RequestContext
           (Demo.request "good" EmptyString EmptyString
              (Demo.authenticated ["root"]))).
Proof.
  apply (Authenticate_attaches_claims Demo.parseClaims Demo.ja
           (Demo.request "good" EmptyString EmptyString
              (Demo.authenticated ["root"]))).
  reflexivity.
Defined.

(** The same two roles, once in another order and with a repetition. *)
Lemma hasRole_same_roles_witness :
  hasRole "admin" ["editor"; "admin"; "editor"]
  = hasRole "admin" ["admin"; "editor"].
Proof.
  apply (hasRole_same_roles "admin" ["editor"; "admin"; "editor"]
           ["admin"; "editor"]).
  intros x. rewrite !elem_of_cons, elem_of_nil. tauto.
Defined.

(** A good token in the bearer header, and the role its claims hold. *)
Lemma pipeline_admits_exactly_witness :
  exists r' : Demo.Req,
    withNextRun
      (verify Demo.ja Demo.finders
         (Demo.request EmptyString "good" EmptyString context.Background))
      (fun r1 =>
         withNext (Authenticate Demo.parseClaims Demo.ja r1)
           (RequiresRole Demo.ja "admin"))
    = Returns [ServeNext r'].
Proof.
  apply (pipeline_admits_exactly Demo.parseClaims Demo.ja Demo.finders
           "admin"
           (Demo.request EmptyString "good" EmptyString context.Background)
           (Some (Demo.token Demo.HS256 true)) None).
  - reflexivity.
  - split; [reflexivity|]. exists (Demo.token Demo.HS256 true).
    split; [reflexivity|]. split; [reflexivity|]. split; [reflexivity|].
    vm_compute. apply list_elem_of_here.
Defined.
